(** * Motor-power calculation helpers of the VEX V5 robot program

    A shallow embedding of the four controller classes
    ([DriveTrain], [IntakeController], [RampController],
    [PneumaticController]), of the driver-control loop of main.cpp that
    calls them, and the properties their callers rely on.

    Every function of these classes is a pure static method over [int],
    [bool] and small enumerations.  The C++ [int] is the 32-bit signed
    integer of the targets the program is built for (the ARM brain and the
    g++ test host); it is represented by a [Z] together with the wrap-around
    its arithmetic performs on those machines. *)

From Stdlib Require Import ZArith Bool List Lia.
Import ListNotations.

Local Open Scope Z_scope.

(** ** The C++ [int] *)

Module CInt.

Definition INT_MIN : Z := -2147483648.
Definition INT_MAX : Z := 2147483647.

(** 2^32, the number of distinct [int] values. *)
Definition modulus : Z := 4294967296.

(** The values an [int] variable can hold. *)
Definition in_int (z : Z) : Prop := INT_MIN <= z <= INT_MAX.

Definition in_intb (z : Z) : bool := (INT_MIN <=? z) && (z <=? INT_MAX).

(** Two's complement reduction of a mathematical result into [int].
    C++ gives no meaning to a signed operation whose result leaves the
    range; the compiled code on both targets keeps the low 32 bits, which
    is what [wrap] computes, and is the identity on results in range. *)
Definition wrap (z : Z) : Z := (z - INT_MIN) mod modulus + INT_MIN.

(** [a + b], [a - b] and unary [-a] on [int]. *)
Definition add (a b : Z) : Z := wrap (a + b).
Definition sub (a b : Z) : Z := wrap (a - b).
Definition neg (a : Z) : Z := wrap (- a).

End CInt.

(** ** DriveTrain.cpp *)

Module DriveTrain.

(** [int DriveTrain::clamp(int value, int min, int max)] *)
Definition clamp (value min max : Z) : Z :=
  if value <? min then min
  else if value >? max then max
  else value.

(** [void DriveTrain::calculateTankDrive(int, int, int&, int&)]; the two
    output parameters are returned as the pair (leftPower, rightPower). *)
Definition calculateTankDrive (leftStickInput rightStickInput : Z) : Z * Z :=
  let leftPower := clamp leftStickInput (-100) 100 in
  let rightPower := clamp rightStickInput (-100) 100 in
  (leftPower, rightPower).

(** [void DriveTrain::calculateArcadeDrive(int, int, int&, int&)]: the
    sum and the difference are stored first, then each is clamped. *)
Definition calculateArcadeDrive (forwardInput turnInput : Z) : Z * Z :=
  let leftPower := CInt.add forwardInput turnInput in
  let rightPower := CInt.sub forwardInput turnInput in
  let leftPower := clamp leftPower (-100) 100 in
  let rightPower := clamp rightPower (-100) 100 in
  (leftPower, rightPower).

(** [int DriveTrain::applyDeadband(int input, int deadband)] *)
Definition applyDeadband (input deadband : Z) : Z :=
  if (input >? CInt.neg deadband) && (input <? deadband) then 0
  else input.

End DriveTrain.

(** ** IntakeController.h / IntakeController.cpp *)

Module IntakeController.

(** [enum MotorState { STOP = 0, FORWARD = 1, REVERSE = -1 }] *)
Inductive MotorState : Set := STOP | FORWARD | REVERSE.

Definition MotorState_value (s : MotorState) : Z :=
  match s with
  | STOP => 0
  | FORWARD => 1
  | REVERSE => -1
  end.

(** [==] on enumerators compares their values. *)
Definition MotorState_eqb (a b : MotorState) : bool :=
  MotorState_value a =? MotorState_value b.

(** [int IntakeController::clampPowerLevel(int powerLevel)] *)
Definition clampPowerLevel (powerLevel : Z) : Z :=
  if powerLevel <? 0 then 0
  else if powerLevel >? 100 then 100
  else powerLevel.

(** [int IntakeController::calculateIntakePower(MotorState, int)] *)
Definition calculateIntakePower (state : MotorState) (powerLevel : Z) : Z :=
  if MotorState_eqb state STOP then 0
  else
    let clampedPower := clampPowerLevel powerLevel in
    if MotorState_eqb state FORWARD then clampedPower
    else if MotorState_eqb state REVERSE then CInt.neg clampedPower
    else 0.

(** [int IntakeController::calculateRampPower(MotorState, int)] *)
Definition calculateRampPower (state : MotorState) (powerLevel : Z) : Z :=
  if MotorState_eqb state STOP then 0
  else
    let clampedPower := clampPowerLevel powerLevel in
    if MotorState_eqb state FORWARD then clampedPower
    else if MotorState_eqb state REVERSE then CInt.neg clampedPower
    else 0.

End IntakeController.

(** ** RampController.h / RampController.cpp *)

Module RampController.

(** [enum MotorState { STOP = 0, FORWARD = 1, REVERSE = -1 }] *)
Inductive MotorState : Set := STOP | FORWARD | REVERSE.

Definition MotorState_value (s : MotorState) : Z :=
  match s with
  | STOP => 0
  | FORWARD => 1
  | REVERSE => -1
  end.

Definition MotorState_eqb (a b : MotorState) : bool :=
  MotorState_value a =? MotorState_value b.

(** [int RampController::clampPowerLevel(int powerLevel)] *)
Definition clampPowerLevel (powerLevel : Z) : Z :=
  if powerLevel <? 0 then 0
  else if powerLevel >? 100 then 100
  else powerLevel.

(** [int RampController::calculateRampPower(MotorState, bool, int)].
    The full power block returns early for FORWARD and REVERSE
    ([Some p]) and otherwise falls through ([None]) to the variable power
    code below it. *)
Definition calculateRampPower
    (state : MotorState) (useFullPower : bool) (powerLevel : Z) : Z :=
  if MotorState_eqb state STOP then 0
  else
    let fullPower :=
      if useFullPower then
        if MotorState_eqb state FORWARD then Some 100
        else if MotorState_eqb state REVERSE then Some (-100)
        else None
      else None in
    match fullPower with
    | Some power => power
    | None =>
        let clampedPower := clampPowerLevel powerLevel in
        if MotorState_eqb state FORWARD then clampedPower
        else if MotorState_eqb state REVERSE then CInt.neg clampedPower
        else 0
    end.

End RampController.

(** ** PneumaticController.h / PneumaticController.cpp *)

Module PneumaticController.

(** [enum HeightPosition { LOW = 0, HIGH = 1 }]: LOW is the retracted
    position of the pistons, HIGH the extended one. *)
Inductive HeightPosition : Set := LOW | HIGH.

Definition HeightPosition_value (p : HeightPosition) : Z :=
  match p with
  | LOW => 0
  | HIGH => 1
  end.

Definition HeightPosition_eqb (a b : HeightPosition) : bool :=
  HeightPosition_value a =? HeightPosition_value b.

(** [bool PneumaticController::calculatePistonState(HeightPosition)] *)
Definition calculatePistonState (position : HeightPosition) : bool :=
  HeightPosition_eqb position HIGH.

(** [HeightPosition PneumaticController::getOppositePosition(HeightPosition)] *)
Definition getOppositePosition (position : HeightPosition) : HeightPosition :=
  if HeightPosition_eqb position LOW then HIGH else LOW.

(** [HeightPosition PneumaticController::togglePosition(HeightPosition)] *)
Definition togglePosition (currentPosition : HeightPosition) : HeightPosition :=
  getOppositePosition currentPosition.

End PneumaticController.

(** ** main.cpp: initialisation and the driver-control loop *)

Module Main.

Import PneumaticController.

(** What one pass of the loop of [usercontrol] reads from [Controller1]:
    the two stick axes and the seven buttons.  A pass calls [position()]
    or [pressing()] at most once for each of them, so a pass sees one
    value per input. *)
Record ControllerSample : Set := {
  Axis3 : Z;
  Axis2 : Z;
  ButtonR1 : bool;
  ButtonR2 : bool;
  ButtonL1 : bool;
  ButtonL2 : bool;
  ButtonX : bool;
  ButtonY : bool;
  ButtonA : bool
}.

(** The two globals of main.cpp, and the devices it commands: a motor
    (group) holds the percentage of the last [spin(forward, _, percent)],
    a piston the value of the last [set]. *)
Record Robot : Set := {
  currentHeight : HeightPosition;
  lastToggleButtonState : bool;
  LeftDrive : Z;
  RightDrive : Z;
  IntakeMotor : Z;
  RampMotor : Z;
  FullPowerRampMotor : Z;
  Piston1 : bool;
  Piston2 : bool
}.

(** [void vexcodeInit(void)] *)
Definition vexcodeInit (r : Robot) : Robot :=
  let initialPistonState := calculatePistonState LOW in
  {| currentHeight := LOW;
     lastToggleButtonState := lastToggleButtonState r;
     LeftDrive := LeftDrive r;
     RightDrive := RightDrive r;
     IntakeMotor := IntakeMotor r;
     RampMotor := RampMotor r;
     FullPowerRampMotor := FullPowerRampMotor r;
     Piston1 := initialPistonState;
     Piston2 := initialPistonState |}.

(** One pass through the body of [while (true)] in [usercontrol]; the
    closing [wait(20, msec)] only spaces the passes in time. *)
Definition usercontrol_pass (c : ControllerSample) (r : Robot) : Robot :=
  let leftStickInput := Axis3 c in
  let rightStickInput := Axis2 c in
  let leftStickInput := DriveTrain.applyDeadband leftStickInput 5 in
  let rightStickInput := DriveTrain.applyDeadband rightStickInput 5 in
  let powers := DriveTrain.calculateTankDrive leftStickInput rightStickInput in
  let leftPower := fst powers in
  let rightPower := snd powers in
  let intakeState :=
    if ButtonR1 c then IntakeController.FORWARD
    else if ButtonR2 c then IntakeController.REVERSE
    else IntakeController.STOP in
  let intakePower := IntakeController.calculateIntakePower intakeState 100 in
  let rampState :=
    if ButtonL1 c then IntakeController.FORWARD
    else if ButtonL2 c then IntakeController.REVERSE
    else IntakeController.STOP in
  let rampPower := IntakeController.calculateRampPower rampState 100 in
  let fullPowerState :=
    if ButtonX c then RampController.FORWARD
    else if ButtonY c then RampController.REVERSE
    else RampController.STOP in
  let fullPowerRampPower :=
    RampController.calculateRampPower fullPowerState true 0 in
  let currentToggleButton := ButtonA c in
  let pneumatics :=
    if currentToggleButton && negb (lastToggleButtonState r) then
      let currentHeight := togglePosition (currentHeight r) in
      let pistonState := calculatePistonState currentHeight in
      (currentHeight, pistonState, pistonState)
    else (currentHeight r, Piston1 r, Piston2 r) in
  {| currentHeight := fst (fst pneumatics);
     lastToggleButtonState := currentToggleButton;
     LeftDrive := leftPower;
     RightDrive := rightPower;
     IntakeMotor := intakePower;
     RampMotor := rampPower;
     FullPowerRampMotor := fullPowerRampPower;
     Piston1 := snd (fst pneumatics);
     Piston2 := snd pneumatics |}.

(** [void usercontrol(void)]: the loop never ends, so it is observed after
    the passes made so far, one controller sample per pass, oldest first. *)
Definition usercontrol (samples : list ControllerSample) (r : Robot) : Robot :=
  fold_left (fun r c => usercontrol_pass c r) samples r.

(** Both pistons hold the command of the recorded height. *)
Definition pistons_follow_height (r : Robot) : Prop :=
  Piston1 r = calculatePistonState (currentHeight r) /\
  Piston2 r = calculatePistonState (currentHeight r).

(** Number of passes at which button A is down and was up the pass before,
    [last] being its state before the first pass. *)
Fixpoint rising_edges (last : bool) (presses : list bool) : nat :=
  match presses with
  | [] => O
  | a :: rest =>
      ((if a && negb last then 1 else 0) + rising_edges a rest)%nat
  end.

(** Sample data for the examples: a controller with everything released,
    the same with button A down, and a robot as the static initialisers of
    main.cpp and [vexcodeInit] leave it, motors not yet commanded. *)
Definition sample_released : ControllerSample :=
  {| Axis3 := 0; Axis2 := 0;
     ButtonR1 := false; ButtonR2 := false;
     ButtonL1 := false; ButtonL2 := false;
     ButtonX := false; ButtonY := false;
     ButtonA := false |}.

Definition sample_A_down : ControllerSample :=
  {| Axis3 := 0; Axis2 := 0;
     ButtonR1 := false; ButtonR2 := false;
     ButtonL1 := false; ButtonL2 := false;
     ButtonX := false; ButtonY := false;
     ButtonA := true |}.

Definition robot_started : Robot :=
  vexcodeInit
    {| currentHeight := LOW; lastToggleButtonState := false;
       LeftDrive := 0; RightDrive := 0;
       IntakeMotor := 0; RampMotor := 0; FullPowerRampMotor := 0;
       Piston1 := false; Piston2 := false |}.

End Main.

(** The enumerator of [RampController::MotorState] with the same name and
    value as one of [IntakeController::MotorState]. *)
Definition RampState_of (s : IntakeController.MotorState)
  : RampController.MotorState :=
  match s with
  | IntakeController.STOP => RampController.STOP
  | IntakeController.FORWARD => RampController.FORWARD
  | IntakeController.REVERSE => RampController.REVERSE
  end.

(** ** Ranges of the data model *)

(** A motor power is a duty cycle between -100 and 100 percent. *)
Definition MotorPower_ok (p : Z) : Prop := -100 <= p <= 100.

(** * Properties *)

(** ** Arithmetic on [int] *)

Section CIntFacts.

Import CInt.

Lemma wrap_in_int (z : Z) : in_int (wrap z).
Proof.
  unfold in_int, wrap, INT_MIN, INT_MAX, modulus.
  pose proof (Z.mod_pos_bound (z - -2147483648) 4294967296 eq_refl).
  lia.
Qed.

Lemma wrap_small (z : Z) : in_int z -> wrap z = z.
Proof.
  unfold in_int, wrap, INT_MIN, INT_MAX, modulus. intros Hz.
  rewrite Z.mod_small by lia. lia.
Qed.

Lemma in_intb_spec (z : Z) : in_intb z = true <-> in_int z.
Proof.
  unfold in_intb, in_int.
  rewrite andb_true_iff, !Z.leb_le. tauto.
Qed.

(** Negating [INT_MIN] gives [INT_MIN] back. *)
Lemma neg_INT_MIN : neg INT_MIN = INT_MIN.
Proof. reflexivity. Qed.

Lemma neg_small (z : Z) : INT_MIN < z <= INT_MAX -> neg z = - z.
Proof.
  intros Hz. unfold neg. apply wrap_small.
  unfold in_int, INT_MIN, INT_MAX in *. lia.
Qed.

End CIntFacts.

(** ** Drive mixing *)

Section DriveTrainFacts.

Import CInt DriveTrain.

(** [clamp] with ordered bounds is the composition of min and max. *)
Lemma clamp_max_min (value lo hi : Z) :
  lo <= hi -> clamp value lo hi = Z.max lo (Z.min value hi).
Proof.
  intros Hle. unfold clamp.
  destruct (Z.ltb_spec value lo).
  - lia.
  - rewrite Z.gtb_ltb. destruct (Z.ltb_spec hi value); lia.
Qed.

Lemma clamp_bounds (value lo hi : Z) :
  lo <= hi -> lo <= clamp value lo hi <= hi.
Proof. intros Hle. rewrite clamp_max_min by exact Hle. lia. Qed.

Lemma clamp_id (value lo hi : Z) :
  lo <= value <= hi -> clamp value lo hi = value.
Proof. intros Hv. rewrite clamp_max_min by lia. lia. Qed.

(** The test of [applyDeadband], read on mathematical integers. *)
Lemma deadband_test (input deadband : Z) :
  in_int deadband ->
  (input >? neg deadband) && (input <? deadband) = true
  <-> - deadband < input < deadband.
Proof.
  intros Hd.
  rewrite andb_true_iff, Z.gtb_ltb, !Z.ltb_lt.
  destruct (Z.eq_dec deadband INT_MIN) as [-> | Hne].
  - rewrite neg_INT_MIN. unfold INT_MIN. lia.
  - rewrite neg_small; [lia |].
    unfold in_int, INT_MIN, INT_MAX in *. lia.
Qed.

(** For a threshold that is not positive the test never succeeds,
    whatever [int] the negation produces. *)
Lemma deadband_test_nonpos (input deadband : Z) :
  deadband <= 0 ->
  (input >? neg deadband) && (input <? deadband) = false.
Proof.
  intros Hd. apply andb_false_iff.
  rewrite Z.gtb_ltb, !Z.ltb_ge.
  destruct (Z.le_gt_cases INT_MIN deadband) as [Hlo | Hlo].
  - pose proof (deadband_test input deadband) as Ht.
    rewrite andb_true_iff, Z.gtb_ltb, !Z.ltb_lt in Ht.
    assert (Hin : in_int deadband)
      by (unfold in_int, INT_MIN, INT_MAX in *; lia).
    specialize (Ht Hin).
    destruct (Z.le_gt_cases deadband input); [now right | left].
    destruct (Z.le_gt_cases input (neg deadband)); [assumption |].
    lia.
  - pose proof (wrap_in_int (- deadband)) as Hw.
    unfold neg, in_int in *. lia.
Qed.

End DriveTrainFacts.

(** C6. Tank drive maps each side on its own: an output equals its stick
    input when that input lies in [-100, 100], is 100 for a larger input
    and -100 for a smaller one, and neither output depends on the other
    side's input. *)
Theorem calculateTankDrive_per_side (leftStickInput rightStickInput : Z) :
  let lp := fst (DriveTrain.calculateTankDrive leftStickInput rightStickInput) in
  let rp := snd (DriveTrain.calculateTankDrive leftStickInput rightStickInput) in
  (-100 <= leftStickInput <= 100 -> lp = leftStickInput) /\
  (100 < leftStickInput -> lp = 100) /\
  (leftStickInput < -100 -> lp = -100) /\
  (-100 <= rightStickInput <= 100 -> rp = rightStickInput) /\
  (100 < rightStickInput -> rp = 100) /\
  (rightStickInput < -100 -> rp = -100) /\
  (forall other : Z,
      fst (DriveTrain.calculateTankDrive leftStickInput other) = lp /\
      snd (DriveTrain.calculateTankDrive other rightStickInput) = rp).
Proof.
  cbn -[Z.le Z.lt DriveTrain.clamp].
  rewrite !clamp_max_min by lia.
  repeat split; intros; lia.
Qed.

Lemma calculateTankDrive_per_side_witness :
  DriveTrain.calculateTankDrive 50 150 = (50, 100) /\
  DriveTrain.calculateTankDrive (-150) (-50) = (-100, -50).
Proof.
  pose proof (calculateTankDrive_per_side 50 150) as H1.
  pose proof (calculateTankDrive_per_side (-150) (-50)) as H2.
  cbv zeta in H1, H2.
  destruct H1 as (Hl1 & _ & _ & _ & Hr1 & _).
  destruct H2 as (_ & _ & Hl2 & Hr2 & _).
  split; apply injective_projections.
  - apply Hl1. split; discriminate.
  - apply Hr1. reflexivity.
  - apply Hl2. reflexivity.
  - apply Hr2. split; discriminate.
Defined.

(** C1, as amended. Whenever the sum and the difference of the two inputs
    fit in an [int] (so for every pair of stick inputs in [-100, 100]),
    arcade drive returns the sum clamped to [-100, 100] on the left and the
    difference clamped to [-100, 100] on the right, each side clamped on its
    own after the mixing. *)
Theorem calculateArcadeDrive_clamp_after_sum (forwardInput turnInput : Z) :
  CInt.in_int (forwardInput + turnInput) ->
  CInt.in_int (forwardInput - turnInput) ->
  DriveTrain.calculateArcadeDrive forwardInput turnInput =
    (Z.max (-100) (Z.min (forwardInput + turnInput) 100),
     Z.max (-100) (Z.min (forwardInput - turnInput) 100)).
Proof.
  intros Hsum Hdiff. unfold DriveTrain.calculateArcadeDrive, CInt.add, CInt.sub.
  rewrite !wrap_small by assumption.
  rewrite !clamp_max_min by lia.
  reflexivity.
Qed.

Lemma calculateArcadeDrive_clamp_after_sum_witness :
  DriveTrain.calculateArcadeDrive 80 50 = (100, 30).
Proof.
  apply (calculateArcadeDrive_clamp_after_sum 80 50);
    unfold CInt.in_int; split; discriminate.
Defined.

(** C1, as stated, fails where the sum leaves the range of [int]: for
    forward = INT_MAX and turn = 1 the stored sum is INT_MIN, so the left
    power is -100 and not clamp (INT_MAX + 1) = 100. *)
Lemma calculateArcadeDrive_sum_overflow :
  CInt.in_int 2147483647 /\ CInt.in_int 1 /\
  DriveTrain.calculateArcadeDrive 2147483647 1 = (-100, 100) /\
  DriveTrain.calculateArcadeDrive 2147483647 1 <>
    (Z.max (-100) (Z.min (2147483647 + 1) 100),
     Z.max (-100) (Z.min (2147483647 - 1) 100)).
Proof.
  repeat split; try discriminate.
Qed.

(** C4. With an [int] threshold d, applyDeadband returns 0 when
    -d < input < d holds strictly and the input itself otherwise; an input
    equal to d or to -d is returned unchanged, and an input outside the
    band is returned as it is, however large. *)
Theorem applyDeadband_strict_band (input deadband : Z) :
  CInt.in_int deadband ->
  (- deadband < input < deadband ->
     DriveTrain.applyDeadband input deadband = 0) /\
  (~ (- deadband < input < deadband) ->
     DriveTrain.applyDeadband input deadband = input) /\
  (input = deadband \/ input = - deadband ->
     DriveTrain.applyDeadband input deadband = input).
Proof.
  intros Hd. unfold DriveTrain.applyDeadband.
  pose proof (deadband_test input deadband Hd) as Ht.
  destruct ((input >? CInt.neg deadband) && (input <? deadband)).
  - assert (Hin : - deadband < input < deadband) by (apply Ht; reflexivity).
    repeat split; intros; [contradiction | lia].
  - assert (Hout : ~ (- deadband < input < deadband)).
    { intros Hin. apply Ht in Hin. discriminate. }
    repeat split; intros; [contradiction | reflexivity ..].
Qed.

Lemma applyDeadband_strict_band_witness :
  DriveTrain.applyDeadband 3 5 = 0 /\
  DriveTrain.applyDeadband 10 5 = 10 /\
  DriveTrain.applyDeadband 5 5 = 5 /\
  DriveTrain.applyDeadband (-5) 5 = -5.
Proof.
  assert (H5 : CInt.in_int 5) by (split; discriminate).
  split; [| split; [| split]].
  - apply (proj1 (applyDeadband_strict_band 3 5 H5)). split; reflexivity.
  - apply (proj1 (proj2 (applyDeadband_strict_band 10 5 H5))).
    intros [_ Hlt]. discriminate Hlt.
  - apply (proj2 (proj2 (applyDeadband_strict_band 5 5 H5))).
    left. reflexivity.
  - apply (proj2 (proj2 (applyDeadband_strict_band (-5) 5 H5))).
    right. reflexivity.
Defined.

(** C10. applyDeadband returns 0 or its input and nothing else; so an
    input in [-100, 100] gives an output in [-100, 100], and with a
    threshold that is 0 or negative every input is returned unchanged. *)
Theorem applyDeadband_zero_or_input (input deadband : Z) :
  (DriveTrain.applyDeadband input deadband = 0 \/
   DriveTrain.applyDeadband input deadband = input) /\
  (-100 <= input <= 100 ->
     -100 <= DriveTrain.applyDeadband input deadband <= 100) /\
  (deadband <= 0 -> DriveTrain.applyDeadband input deadband = input).
Proof.
  unfold DriveTrain.applyDeadband. split; [| split].
  - destruct ((input >? CInt.neg deadband) && (input <? deadband)); auto.
  - intros Hin.
    destruct ((input >? CInt.neg deadband) && (input <? deadband)); lia.
  - intros Hd. rewrite deadband_test_nonpos by exact Hd. reflexivity.
Qed.

Lemma applyDeadband_zero_or_input_witness :
  -100 <= DriveTrain.applyDeadband 3 5 <= 100 /\
  DriveTrain.applyDeadband 3 (-5) = 3.
Proof.
  split.
  - apply (proj1 (proj2 (applyDeadband_zero_or_input 3 5))).
    split; discriminate.
  - apply (proj2 (proj2 (applyDeadband_zero_or_input 3 (-5)))).
    discriminate.
Defined.

(** ** Motor-state power mapping *)

Section PowerLevelFacts.

Import CInt.

Lemma Intake_clampPowerLevel_max_min (powerLevel : Z) :
  IntakeController.clampPowerLevel powerLevel = Z.max 0 (Z.min powerLevel 100).
Proof.
  unfold IntakeController.clampPowerLevel.
  destruct (Z.ltb_spec powerLevel 0); [lia |].
  rewrite Z.gtb_ltb. destruct (Z.ltb_spec 100 powerLevel); lia.
Qed.

Lemma Ramp_clampPowerLevel_max_min (powerLevel : Z) :
  RampController.clampPowerLevel powerLevel = Z.max 0 (Z.min powerLevel 100).
Proof.
  unfold RampController.clampPowerLevel.
  destruct (Z.ltb_spec powerLevel 0); [lia |].
  rewrite Z.gtb_ltb. destruct (Z.ltb_spec 100 powerLevel); lia.
Qed.

(** Negating a clamped level never leaves the range of [int]. *)
Lemma neg_clamped (powerLevel : Z) :
  neg (Z.max 0 (Z.min powerLevel 100)) = - Z.max 0 (Z.min powerLevel 100).
Proof. apply neg_small. unfold INT_MIN, INT_MAX. lia. Qed.

End PowerLevelFacts.

(** Unfolds a mapping at a known state and normalises the level clamp. *)
Ltac power_cases :=
  cbn -[Z.le Z.max Z.min IntakeController.clampPowerLevel
        RampController.clampPowerLevel CInt.neg];
  rewrite ?Intake_clampPowerLevel_max_min, ?Ramp_clampPowerLevel_max_min,
    ?neg_clamped.

(** C3. The variable-power mapping gives 0 for STOP whatever the level,
    the level clamped to [0, 100] for FORWARD and the negated clamped level
    for REVERSE, for every level, negative and above 100 included. *)
Theorem calculateIntakePower_clamp_and_sign
    (state : IntakeController.MotorState) (powerLevel : Z) :
  IntakeController.calculateIntakePower state powerLevel =
    match state with
    | IntakeController.STOP => 0
    | IntakeController.FORWARD => Z.max 0 (Z.min powerLevel 100)
    | IntakeController.REVERSE => - Z.max 0 (Z.min powerLevel 100)
    end.
Proof.
  destruct state; power_cases; reflexivity.
Qed.

(** C2. The dual-mode mapping gives 0 for STOP whatever the flag and the
    level; in full power mode exactly 100 for FORWARD and -100 for REVERSE
    whatever the level; and in variable power mode the level clamped to
    [0, 100], negated for REVERSE. *)
Theorem calculateRampPower_dual_mode
    (state : RampController.MotorState) (useFullPower : bool)
    (powerLevel : Z) :
  RampController.calculateRampPower state useFullPower powerLevel =
    match state, useFullPower with
    | RampController.STOP, _ => 0
    | RampController.FORWARD, true => 100
    | RampController.REVERSE, true => -100
    | RampController.FORWARD, false => Z.max 0 (Z.min powerLevel 100)
    | RampController.REVERSE, false => - Z.max 0 (Z.min powerLevel 100)
    end.
Proof.
  destruct state, useFullPower; power_cases; reflexivity.
Qed.

(** C7. The intake and the ramp computation of IntakeController are the
    same function of the state and the level. *)
Theorem calculateIntakePower_eq_calculateRampPower
    (state : IntakeController.MotorState) (powerLevel : Z) :
  IntakeController.calculateIntakePower state powerLevel =
  IntakeController.calculateRampPower state powerLevel.
Proof.
  unfold IntakeController.calculateIntakePower,
    IntakeController.calculateRampPower.
  destruct state; reflexivity.
Qed.

(** C5. Every power the mixing and mapping functions produce lies in
    [-100, 100]: both outputs of tank drive and of arcade drive, the
    variable-power mappings and the dual-mode mapping, for all inputs,
    states, flags and levels. *)
Theorem motor_power_in_range
    (a b powerLevel : Z) (istate : IntakeController.MotorState)
    (rstate : RampController.MotorState) (useFullPower : bool) :
  MotorPower_ok (fst (DriveTrain.calculateTankDrive a b)) /\
  MotorPower_ok (snd (DriveTrain.calculateTankDrive a b)) /\
  MotorPower_ok (fst (DriveTrain.calculateArcadeDrive a b)) /\
  MotorPower_ok (snd (DriveTrain.calculateArcadeDrive a b)) /\
  MotorPower_ok (IntakeController.calculateIntakePower istate powerLevel) /\
  MotorPower_ok (IntakeController.calculateRampPower istate powerLevel) /\
  MotorPower_ok
    (RampController.calculateRampPower rstate useFullPower powerLevel).
Proof.
  repeat match goal with |- _ /\ _ => split end; unfold MotorPower_ok.
  1-4: cbn -[Z.le DriveTrain.clamp]; apply clamp_bounds; lia.
  1-2: destruct istate; power_cases; lia.
  destruct rstate, useFullPower; power_cases; lia.
Qed.

(** ** Pneumatic height position *)

(** C8. Toggling is taking the opposite position: LOW becomes HIGH, HIGH
    becomes LOW, and toggling twice gives the starting position back. *)
Theorem togglePosition_involution (p : PneumaticController.HeightPosition) :
  PneumaticController.togglePosition (PneumaticController.togglePosition p) = p /\
  PneumaticController.togglePosition p =
    PneumaticController.getOppositePosition p /\
  PneumaticController.togglePosition PneumaticController.LOW =
    PneumaticController.HIGH /\
  PneumaticController.togglePosition PneumaticController.HIGH =
    PneumaticController.LOW.
Proof.
  destruct p; repeat split.
Qed.

(** C9. The piston command is true exactly for HIGH (extended) and false
    exactly for LOW (retracted). *)
Theorem calculatePistonState_iff_HIGH (p : PneumaticController.HeightPosition) :
  (PneumaticController.calculatePistonState p = true <->
     p = PneumaticController.HIGH) /\
  (PneumaticController.calculatePistonState p = false <->
     p = PneumaticController.LOW).
Proof.
  destruct p; cbn; repeat split; intros; congruence.
Qed.

(** ** Scenarios of the unit tests *)

Example test_tank_drive :
  DriveTrain.calculateTankDrive 50 50 = (50, 50) /\
  DriveTrain.calculateTankDrive (-50) (-50) = (-50, -50) /\
  DriveTrain.calculateTankDrive (-50) 50 = (-50, 50).
Proof. repeat split. Qed.

Example test_arcade_drive :
  DriveTrain.calculateArcadeDrive 50 0 = (50, 50) /\
  DriveTrain.calculateArcadeDrive 50 25 = (75, 25) /\
  DriveTrain.calculateArcadeDrive 50 (-25) = (25, 75) /\
  DriveTrain.calculateArcadeDrive 80 50 = (100, 30).
Proof. repeat split. Qed.

Example test_clamp :
  DriveTrain.clamp 50 (-100) 100 = 50 /\
  DriveTrain.clamp 150 (-100) 100 = 100 /\
  DriveTrain.clamp (-150) (-100) 100 = -100.
Proof. repeat split. Qed.

Example test_deadband :
  DriveTrain.applyDeadband 3 5 = 0 /\
  DriveTrain.applyDeadband 10 5 = 10 /\
  DriveTrain.applyDeadband (-3) 5 = 0.
Proof. repeat split. Qed.

Example test_intake_power :
  IntakeController.calculateIntakePower IntakeController.STOP 50 = 0 /\
  IntakeController.calculateIntakePower IntakeController.FORWARD 50 = 50 /\
  IntakeController.calculateIntakePower IntakeController.REVERSE 50 = -50 /\
  IntakeController.calculateRampPower IntakeController.REVERSE 50 = -50.
Proof. repeat split. Qed.

Example test_full_power_ramp :
  RampController.calculateRampPower RampController.STOP true 50 = 0 /\
  RampController.calculateRampPower RampController.FORWARD true 50 = 100 /\
  RampController.calculateRampPower RampController.REVERSE true 50 = -100 /\
  RampController.calculateRampPower RampController.FORWARD false 75 = 75 /\
  RampController.calculateRampPower RampController.REVERSE false 75 = -75.
Proof. repeat split. Qed.

Example test_piston :
  PneumaticController.calculatePistonState PneumaticController.HIGH = true /\
  PneumaticController.calculatePistonState PneumaticController.LOW = false /\
  PneumaticController.togglePosition
    (PneumaticController.togglePosition PneumaticController.LOW) =
    PneumaticController.LOW.
Proof. repeat split. Qed.

(** * Further properties of the controllers *)

(** ** The range clamp with arbitrary bounds *)

(** X1. With ordered bounds the clamped value lies between them, and it is
    the value itself exactly when the value already lies between them. *)
Theorem clamp_within_ordered_bounds (value lo hi : Z) :
  lo <= hi ->
  lo <= DriveTrain.clamp value lo hi <= hi /\
  (DriveTrain.clamp value lo hi = value <-> lo <= value <= hi).
Proof.
  intros Hle. rewrite clamp_max_min by exact Hle. lia.
Qed.

Lemma clamp_within_ordered_bounds_witness :
  0 <= DriveTrain.clamp 7 0 5 <= 5 /\
  (DriveTrain.clamp 7 0 5 = 7 <-> 0 <= 7 <= 5).
Proof.
  apply (clamp_within_ordered_bounds 7 0 5). discriminate.
Defined.

(** X2. With the bounds the wrong way round (max below min) the lower
    test decides first: a value below min gives min, which is above max,
    and every other value gives max. *)
Theorem clamp_inverted_bounds (value lo hi : Z) :
  hi < lo ->
  (value < lo -> DriveTrain.clamp value lo hi = lo) /\
  (lo <= value -> DriveTrain.clamp value lo hi = hi).
Proof.
  intros Hinv. unfold DriveTrain.clamp. rewrite Z.gtb_ltb.
  destruct (Z.ltb_spec value lo), (Z.ltb_spec hi value); split; intros; lia.
Qed.

Lemma clamp_inverted_bounds_witness :
  DriveTrain.clamp 50 100 (-100) = 100 /\
  DriveTrain.clamp 150 100 (-100) = -100.
Proof.
  split.
  - apply (proj1 (clamp_inverted_bounds 50 100 (-100) eq_refl)). reflexivity.
  - apply (proj2 (clamp_inverted_bounds 150 100 (-100) eq_refl)). discriminate.
Defined.

(** X3. With ordered bounds clamping a second time changes nothing. *)
Theorem clamp_idempotent (value lo hi : Z) :
  lo <= hi ->
  DriveTrain.clamp (DriveTrain.clamp value lo hi) lo hi =
  DriveTrain.clamp value lo hi.
Proof.
  intros Hle. apply clamp_id. apply clamp_bounds. exact Hle.
Qed.

Lemma clamp_idempotent_witness :
  DriveTrain.clamp (DriveTrain.clamp 150 (-100) 100) (-100) 100 =
  DriveTrain.clamp 150 (-100) 100.
Proof.
  apply (clamp_idempotent 150 (-100) 100). discriminate.
Defined.

(** X4. With ordered bounds the clamp keeps the order of its inputs. *)
Theorem clamp_monotone (v w lo hi : Z) :
  lo <= hi -> v <= w ->
  DriveTrain.clamp v lo hi <= DriveTrain.clamp w lo hi.
Proof.
  intros Hle Hvw. rewrite !clamp_max_min by exact Hle. lia.
Qed.

Lemma clamp_monotone_witness :
  DriveTrain.clamp 90 (-100) 100 <= DriveTrain.clamp 150 (-100) 100.
Proof.
  apply (clamp_monotone 90 150 (-100) 100); discriminate.
Defined.

(** ** The level clamp and the mappings of the two motor controllers *)

(** X5. The level clamps of IntakeController and of RampController are
    both the DriveTrain clamp with the bounds 0 and 100. *)
Theorem clampPowerLevel_is_clamp_0_100 (powerLevel : Z) :
  IntakeController.clampPowerLevel powerLevel =
    DriveTrain.clamp powerLevel 0 100 /\
  RampController.clampPowerLevel powerLevel =
    DriveTrain.clamp powerLevel 0 100.
Proof.
  rewrite Intake_clampPowerLevel_max_min, Ramp_clampPowerLevel_max_min.
  rewrite clamp_max_min by lia. split; reflexivity.
Qed.

(** X6. In variable power mode the dual-mode mapping of RampController is
    the mapping of IntakeController at the state of the same name. *)
Theorem calculateRampPower_variable_is_intake
    (state : IntakeController.MotorState) (powerLevel : Z) :
  RampController.calculateRampPower (RampState_of state) false powerLevel =
  IntakeController.calculateIntakePower state powerLevel.
Proof.
  destruct state; power_cases; reflexivity.
Qed.

(** X7. A level of 100 or more in variable power mode gives the power of
    full power mode, whatever level is passed along with full power. *)
Theorem calculateRampPower_variable_saturates
    (state : RampController.MotorState) (powerLevel ignored : Z) :
  100 <= powerLevel ->
  RampController.calculateRampPower state false powerLevel =
  RampController.calculateRampPower state true ignored.
Proof.
  intros Hlevel. destruct state; power_cases; lia.
Qed.

Lemma calculateRampPower_variable_saturates_witness :
  RampController.calculateRampPower RampController.REVERSE false 250 =
  RampController.calculateRampPower RampController.REVERSE true 0.
Proof.
  apply (calculateRampPower_variable_saturates RampController.REVERSE 250 0).
  discriminate.
Defined.

(** X8. The state alone decides the direction: FORWARD never gives a
    negative power and REVERSE never a positive one, also for a negative
    level, and REVERSE gives the opposite of FORWARD at the same level. *)
Theorem calculateIntakePower_direction (powerLevel : Z) :
  0 <= IntakeController.calculateIntakePower
         IntakeController.FORWARD powerLevel /\
  IntakeController.calculateIntakePower
    IntakeController.REVERSE powerLevel <= 0 /\
  IntakeController.calculateIntakePower IntakeController.REVERSE powerLevel =
    - IntakeController.calculateIntakePower
        IntakeController.FORWARD powerLevel.
Proof.
  power_cases. lia.
Qed.

(** ** Arcade drive *)

Section WrapArithmetic.

Import CInt.

(** Reducing an operand first does not change the reduced result. *)
Lemma wrap_add_wrap_r (a b : Z) : wrap (a + wrap b) = wrap (a + b).
Proof.
  unfold wrap. f_equal.
  replace (a + ((b - INT_MIN) mod modulus + INT_MIN) - INT_MIN)
    with (a + (b - INT_MIN) mod modulus) by lia.
  rewrite Z.add_mod_idemp_r by discriminate.
  f_equal. lia.
Qed.

Lemma wrap_sub_wrap_r (a b : Z) : wrap (a - wrap b) = wrap (a - b).
Proof.
  unfold wrap. f_equal.
  replace (a - ((b - INT_MIN) mod modulus + INT_MIN) - INT_MIN)
    with (a - INT_MIN - INT_MIN - (b - INT_MIN) mod modulus) by lia.
  rewrite Zminus_mod_idemp_r.
  f_equal. lia.
Qed.

(** The two outcomes of the deadband filter for an [int] threshold. *)
Lemma applyDeadband_cases (input deadband : Z) :
  in_int deadband ->
  (- deadband < input < deadband /\
   DriveTrain.applyDeadband input deadband = 0) \/
  (~ (- deadband < input < deadband) /\
   DriveTrain.applyDeadband input deadband = input).
Proof.
  intros Hd. unfold DriveTrain.applyDeadband.
  pose proof (deadband_test input deadband Hd) as Ht.
  destruct ((input >? neg deadband) && (input <? deadband)).
  - left. split; [apply Ht |]; reflexivity.
  - right. split; [| reflexivity].
    intros Hin. apply Ht in Hin. discriminate.
Qed.

End WrapArithmetic.

(** X9. Reversing the turn input swaps the two sides: arcade drive at
    (forward, -turn) gives as left power the right power of
    (forward, turn) and as right power its left power, for all inputs. *)
Theorem calculateArcadeDrive_turn_reversal (forwardInput turnInput : Z) :
  DriveTrain.calculateArcadeDrive forwardInput (CInt.neg turnInput) =
    (snd (DriveTrain.calculateArcadeDrive forwardInput turnInput),
     fst (DriveTrain.calculateArcadeDrive forwardInput turnInput)).
Proof.
  unfold DriveTrain.calculateArcadeDrive, CInt.add, CInt.sub, CInt.neg.
  cbn [fst snd].
  rewrite wrap_add_wrap_r, wrap_sub_wrap_r.
  replace (forwardInput + - turnInput) with (forwardInput - turnInput) by lia.
  replace (forwardInput - - turnInput) with (forwardInput + turnInput) by lia.
  reflexivity.
Qed.

(** X10. Without turn, arcade drive is tank drive with the forward input
    on both sticks. *)
Theorem calculateArcadeDrive_no_turn (forwardInput : Z) :
  CInt.in_int forwardInput ->
  DriveTrain.calculateArcadeDrive forwardInput 0 =
  DriveTrain.calculateTankDrive forwardInput forwardInput.
Proof.
  intros Hf.
  unfold DriveTrain.calculateArcadeDrive, DriveTrain.calculateTankDrive,
    CInt.add, CInt.sub.
  rewrite Z.add_0_r, Z.sub_0_r, wrap_small by exact Hf.
  reflexivity.
Qed.

Lemma calculateArcadeDrive_no_turn_witness :
  DriveTrain.calculateArcadeDrive 150 0 = DriveTrain.calculateTankDrive 150 150.
Proof.
  apply (calculateArcadeDrive_no_turn 150). split; discriminate.
Defined.

(** X11. When the sum and the difference of the inputs fit in an [int], a
    turn input that is not negative never makes the left power smaller
    than the right power, saturated or not. *)
Theorem calculateArcadeDrive_turn_order (forwardInput turnInput : Z) :
  CInt.in_int (forwardInput + turnInput) ->
  CInt.in_int (forwardInput - turnInput) ->
  0 <= turnInput ->
  snd (DriveTrain.calculateArcadeDrive forwardInput turnInput) <=
  fst (DriveTrain.calculateArcadeDrive forwardInput turnInput).
Proof.
  intros Hsum Hdiff Hturn.
  unfold DriveTrain.calculateArcadeDrive, CInt.add, CInt.sub. cbn [fst snd].
  rewrite !wrap_small by assumption.
  rewrite !clamp_max_min by lia. lia.
Qed.

Lemma calculateArcadeDrive_turn_order_witness :
  snd (DriveTrain.calculateArcadeDrive 80 50) <=
  fst (DriveTrain.calculateArcadeDrive 80 50).
Proof.
  apply (calculateArcadeDrive_turn_order 80 50);
    try (split; discriminate); discriminate.
Defined.

(** ** The deadband filter *)

(** X12. Filtering twice with the same threshold is filtering once. *)
Theorem applyDeadband_idempotent (input deadband : Z) :
  DriveTrain.applyDeadband (DriveTrain.applyDeadband input deadband) deadband =
  DriveTrain.applyDeadband input deadband.
Proof.
  unfold DriveTrain.applyDeadband.
  destruct ((input >? CInt.neg deadband) && (input <? deadband)) eqn:Hin.
  - destruct ((0 >? CInt.neg deadband) && (0 <? deadband)); reflexivity.
  - rewrite Hin. reflexivity.
Qed.

(** X13. The filter is symmetric about zero: on [int] values, filtering
    the negated input gives the negated result, INT_MIN included. *)
Theorem applyDeadband_odd (input deadband : Z) :
  CInt.in_int input -> CInt.in_int deadband ->
  DriveTrain.applyDeadband (CInt.neg input) deadband =
  CInt.neg (DriveTrain.applyDeadband input deadband).
Proof.
  intros Hi Hd.
  destruct (Z.eq_dec input CInt.INT_MIN) as [-> | Hne].
  - rewrite neg_INT_MIN. unfold DriveTrain.applyDeadband.
    pose proof (wrap_in_int (- deadband)) as Hw. fold (CInt.neg deadband) in Hw.
    replace (CInt.INT_MIN >? CInt.neg deadband) with false.
    + cbn [andb]. rewrite neg_INT_MIN. reflexivity.
    + symmetry. rewrite Z.gtb_ltb. apply Z.ltb_ge. apply Hw.
  - assert (Hneg : CInt.neg input = - input).
    { apply neg_small. unfold CInt.in_int in Hi. lia. }
    rewrite Hneg.
    destruct (applyDeadband_cases input deadband Hd) as [[Hin ->] | [Hout ->]];
      destruct (applyDeadband_cases (- input) deadband Hd)
        as [[Hin' ->] | [Hout' ->]]; try lia.
    reflexivity.
Qed.

Lemma applyDeadband_odd_witness :
  DriveTrain.applyDeadband (CInt.neg 3) 5 =
    CInt.neg (DriveTrain.applyDeadband 3 5) /\
  DriveTrain.applyDeadband (CInt.neg (-2147483648)) 5 =
    CInt.neg (DriveTrain.applyDeadband (-2147483648) 5).
Proof.
  split.
  - apply (applyDeadband_odd 3 5); split; discriminate.
  - apply (applyDeadband_odd (-2147483648) 5); split; discriminate.
Defined.

(** X14. For an [int] threshold of at most 100 the deadband filter and the
    clamp to [-100, 100] can be applied in either order. *)
Theorem applyDeadband_clamp_commute (input deadband : Z) :
  CInt.in_int deadband -> deadband <= 100 ->
  DriveTrain.clamp (DriveTrain.applyDeadband input deadband) (-100) 100 =
  DriveTrain.applyDeadband (DriveTrain.clamp input (-100) 100) deadband.
Proof.
  intros Hd Hsmall.
  destruct (applyDeadband_cases input deadband Hd) as [[Hin ->] | [Hout ->]];
    destruct (applyDeadband_cases
                (DriveTrain.clamp input (-100) 100) deadband Hd)
      as [[Hin' ->] | [Hout' ->]];
    rewrite clamp_max_min in * by lia; lia.
Qed.

Lemma applyDeadband_clamp_commute_witness :
  DriveTrain.clamp (DriveTrain.applyDeadband 150 5) (-100) 100 =
  DriveTrain.applyDeadband (DriveTrain.clamp 150 (-100) 100) 5.
Proof.
  apply (applyDeadband_clamp_commute 150 5); [split |]; discriminate.
Defined.

(** The order matters for a larger threshold: with 101 the clamped input
    100 falls inside the band. *)
Example applyDeadband_clamp_threshold_101 :
  DriveTrain.clamp (DriveTrain.applyDeadband 150 101) (-100) 100 = 100 /\
  DriveTrain.applyDeadband (DriveTrain.clamp 150 (-100) 100) 101 = 0.
Proof. split; reflexivity. Qed.

(** ** Pneumatic height control *)

(** X15. Toggling the position flips the piston command. *)
Theorem calculatePistonState_togglePosition
    (p : PneumaticController.HeightPosition) :
  PneumaticController.calculatePistonState
    (PneumaticController.togglePosition p) =
  negb (PneumaticController.calculatePistonState p).
Proof.
  destruct p; reflexivity.
Qed.

Section DriverControl.

Import PneumaticController Main.

Lemma togglePosition_twice (p : HeightPosition) :
  togglePosition (togglePosition p) = p.
Proof. destruct p; reflexivity. Qed.

Lemma usercontrol_cons (c : ControllerSample) (rest : list ControllerSample)
    (r : Robot) :
  usercontrol (c :: rest) r = usercontrol rest (usercontrol_pass c r).
Proof. reflexivity. Qed.

(** The pneumatic part of a pass, by whether button A has just gone down. *)
Lemma usercontrol_pass_pneumatics (c : ControllerSample) (r : Robot) :
  lastToggleButtonState (usercontrol_pass c r) = ButtonA c /\
  if ButtonA c && negb (lastToggleButtonState r) then
    currentHeight (usercontrol_pass c r) = togglePosition (currentHeight r) /\
    Piston1 (usercontrol_pass c r) =
      calculatePistonState (togglePosition (currentHeight r)) /\
    Piston2 (usercontrol_pass c r) =
      calculatePistonState (togglePosition (currentHeight r))
  else
    currentHeight (usercontrol_pass c r) = currentHeight r /\
    Piston1 (usercontrol_pass c r) = Piston1 r /\
    Piston2 (usercontrol_pass c r) = Piston2 r.
Proof.
  unfold usercontrol_pass. cbn [lastToggleButtonState currentHeight Piston1 Piston2].
  destruct (ButtonA c && negb (lastToggleButtonState r)); repeat split.
Qed.

Lemma usercontrol_pass_keeps_pistons (c : ControllerSample) (r : Robot) :
  pistons_follow_height r -> pistons_follow_height (usercontrol_pass c r).
Proof.
  unfold pistons_follow_height. intros [H1 H2].
  destruct (usercontrol_pass_pneumatics c r) as [_ Hp].
  destruct (ButtonA c && negb (lastToggleButtonState r));
    destruct Hp as (-> & -> & ->); auto.
Qed.

Lemma usercontrol_keeps_pistons (samples : list ControllerSample) (r : Robot) :
  pistons_follow_height r -> pistons_follow_height (usercontrol samples r).
Proof.
  revert r. induction samples as [| c rest IH]; intros r Hr.
  - exact Hr.
  - rewrite usercontrol_cons. apply IH.
    apply usercontrol_pass_keeps_pistons. exact Hr.
Qed.

(** While button A stays down after a pass that already saw it down,
    height and pistons stay as they are. *)
Lemma usercontrol_held (held : list ControllerSample) (r : Robot) :
  lastToggleButtonState r = true ->
  Forall (fun c => ButtonA c = true) held ->
  currentHeight (usercontrol held r) = currentHeight r /\
  Piston1 (usercontrol held r) = Piston1 r /\
  Piston2 (usercontrol held r) = Piston2 r.
Proof.
  revert r. induction held as [| c rest IH]; intros r Hlast Hall.
  - repeat split.
  - inversion Hall as [| c' rest' Hc Hrest]; subst.
    rewrite usercontrol_cons.
    destruct (usercontrol_pass_pneumatics c r) as [Hl Hp].
    rewrite Hc, Hlast in Hp. cbn [andb negb] in Hp.
    destruct Hp as (Hh & Hp1 & Hp2).
    rewrite <- Hh, <- Hp1, <- Hp2.
    apply IH; [rewrite Hl; exact Hc | exact Hrest].
Qed.

End DriverControl.

(** X16. After vexcodeInit and any number of passes of the driver-control
    loop, with any controller samples, both pistons hold the command of the
    recorded height: the pistons and the height never disagree. *)
Theorem usercontrol_pistons_follow_height
    (samples : list Main.ControllerSample) (r : Main.Robot) :
  let r' := Main.usercontrol samples (Main.vexcodeInit r) in
  Main.Piston1 r' =
    PneumaticController.calculatePistonState (Main.currentHeight r') /\
  Main.Piston2 r' =
    PneumaticController.calculatePistonState (Main.currentHeight r').
Proof.
  apply usercontrol_keeps_pistons. split; reflexivity.
Qed.

(** X17. The height after a run of passes is given by the parity of the
    number of times button A went down: unchanged for an even number,
    toggled for an odd number. *)
Theorem usercontrol_height_parity
    (samples : list Main.ControllerSample) (r : Main.Robot) :
  Main.currentHeight (Main.usercontrol samples r) =
    if Nat.even (Main.rising_edges (Main.lastToggleButtonState r)
                   (map Main.ButtonA samples))
    then Main.currentHeight r
    else PneumaticController.togglePosition (Main.currentHeight r).
Proof.
  revert r. induction samples as [| c rest IH]; intros r.
  - reflexivity.
  - rewrite usercontrol_cons, IH. cbn [map Main.rising_edges].
    destruct (usercontrol_pass_pneumatics c r) as [-> Hp].
    destruct (Main.ButtonA c && negb (Main.lastToggleButtonState r));
      destruct Hp as (-> & _).
    + change (1 + ?n)%nat with (S n).
      rewrite Nat.even_succ, <- Nat.negb_even.
      destruct (Nat.even _); cbn [negb];
        [reflexivity | apply togglePosition_twice].
    + reflexivity.
Qed.

(** X18. A press is counted once however long it lasts: if button A was up
    before and is down during one or more passes in a row, the height is
    toggled exactly once and both pistons get the command of the new
    height. *)
Theorem usercontrol_hold_toggles_once
    (c : Main.ControllerSample) (held : list Main.ControllerSample)
    (r : Main.Robot) :
  Main.lastToggleButtonState r = false ->
  Forall (fun c => Main.ButtonA c = true) (c :: held) ->
  let r' := Main.usercontrol (c :: held) r in
  Main.currentHeight r' =
    PneumaticController.togglePosition (Main.currentHeight r) /\
  Main.Piston1 r' =
    PneumaticController.calculatePistonState
      (PneumaticController.togglePosition (Main.currentHeight r)) /\
  Main.Piston2 r' =
    PneumaticController.calculatePistonState
      (PneumaticController.togglePosition (Main.currentHeight r)).
Proof.
  intros Hlast Hall r'. subst r'.
  inversion Hall as [| c' rest' Hc Hrest]; subst.
  rewrite usercontrol_cons.
  destruct (usercontrol_pass_pneumatics c r) as [Hl Hp].
  rewrite Hc, Hlast in Hp. cbn [andb negb] in Hp.
  destruct (usercontrol_held held (Main.usercontrol_pass c r))
    as (-> & -> & ->); [rewrite Hl; exact Hc | exact Hrest |].
  exact Hp.
Qed.

Lemma usercontrol_hold_toggles_once_witness :
  let r' := Main.usercontrol
              [Main.sample_A_down; Main.sample_A_down; Main.sample_A_down]
              Main.robot_started in
  Main.currentHeight r' = PneumaticController.HIGH /\
  Main.Piston1 r' = true /\ Main.Piston2 r' = true.
Proof.
  apply (usercontrol_hold_toggles_once Main.sample_A_down
           [Main.sample_A_down; Main.sample_A_down] Main.robot_started).
  - reflexivity.
  - repeat constructor.
Defined.

(** X19. While button A is up nothing pneumatic changes: after any number
    of passes that all see it up, the height and both pistons are as
    before. *)
Theorem usercontrol_released_keeps_height
    (samples : list Main.ControllerSample) (r : Main.Robot) :
  Forall (fun c => Main.ButtonA c = false) samples ->
  Main.currentHeight (Main.usercontrol samples r) = Main.currentHeight r /\
  Main.Piston1 (Main.usercontrol samples r) = Main.Piston1 r /\
  Main.Piston2 (Main.usercontrol samples r) = Main.Piston2 r.
Proof.
  revert r. induction samples as [| c rest IH]; intros r Hall.
  - repeat split.
  - inversion Hall as [| c' rest' Hc Hrest]; subst.
    rewrite usercontrol_cons.
    destruct (usercontrol_pass_pneumatics c r) as [_ Hp].
    rewrite Hc in Hp. cbn [andb] in Hp.
    destruct Hp as (Hh & Hp1 & Hp2).
    rewrite <- Hh, <- Hp1, <- Hp2.
    apply IH. exact Hrest.
Qed.

Lemma usercontrol_released_keeps_height_witness :
  let r' := Main.usercontrol [Main.sample_released; Main.sample_released]
              Main.robot_started in
  Main.currentHeight r' = PneumaticController.LOW /\
  Main.Piston1 r' = false /\ Main.Piston2 r' = false.
Proof.
  apply (usercontrol_released_keeps_height
           [Main.sample_released; Main.sample_released] Main.robot_started).
  repeat constructor.
Defined.

(** ** Motor commands of a pass *)

(** X20. Every motor command a pass issues lies in [-100, 100], whatever
    the controller delivers, stick readings outside [-100, 100]
    included. *)
Theorem usercontrol_pass_motor_range
    (c : Main.ControllerSample) (r : Main.Robot) :
  MotorPower_ok (Main.LeftDrive (Main.usercontrol_pass c r)) /\
  MotorPower_ok (Main.RightDrive (Main.usercontrol_pass c r)) /\
  MotorPower_ok (Main.IntakeMotor (Main.usercontrol_pass c r)) /\
  MotorPower_ok (Main.RampMotor (Main.usercontrol_pass c r)) /\
  MotorPower_ok (Main.FullPowerRampMotor (Main.usercontrol_pass c r)).
Proof.
  unfold Main.usercontrol_pass.
  cbn [Main.LeftDrive Main.RightDrive Main.IntakeMotor Main.RampMotor
       Main.FullPowerRampMotor].
  repeat match goal with |- _ /\ _ => split end; unfold MotorPower_ok.
  1-2: cbn -[Z.le DriveTrain.clamp DriveTrain.applyDeadband];
    apply clamp_bounds; lia.
  - destruct (Main.ButtonR1 c), (Main.ButtonR2 c); power_cases; lia.
  - destruct (Main.ButtonL1 c), (Main.ButtonL2 c); power_cases; lia.
  - destruct (Main.ButtonX c), (Main.ButtonY c); power_cases; lia.
Qed.

(** X21. The drive side of a pass: a stick reading strictly between -5 and
    5 stops that side; any other reading is passed on, limited to
    [-100, 100]. The left side follows axis 3 only and the right side
    axis 2 only. *)
Theorem usercontrol_pass_drive
    (c : Main.ControllerSample) (r : Main.Robot) :
  Main.LeftDrive (Main.usercontrol_pass c r) =
    (if (-5 <? Main.Axis3 c) && (Main.Axis3 c <? 5) then 0
     else Z.max (-100) (Z.min (Main.Axis3 c) 100)) /\
  Main.RightDrive (Main.usercontrol_pass c r) =
    (if (-5 <? Main.Axis2 c) && (Main.Axis2 c <? 5) then 0
     else Z.max (-100) (Z.min (Main.Axis2 c) 100)).
Proof.
  unfold Main.usercontrol_pass. cbn [Main.LeftDrive Main.RightDrive].
  cbn -[Z.max Z.min DriveTrain.clamp DriveTrain.applyDeadband].
  rewrite !clamp_max_min by lia.
  unfold DriveTrain.applyDeadband.
  change (CInt.neg 5) with (-5). rewrite !Z.gtb_ltb.
  split.
  - destruct ((-5 <? Main.Axis3 c) && (Main.Axis3 c <? 5)); reflexivity.
  - destruct ((-5 <? Main.Axis2 c) && (Main.Axis2 c <? 5)); reflexivity.
Qed.

(** X22. Buttons of a pair are ranked: R1, L1 and X win over R2, L2 and Y
    when both are down. The intake and the lower ramp run at 100 for the
    first button, at -100 for the second alone and stop otherwise, and so
    does the full power motor, for which the level 0 it is called with
    plays no part. *)
Theorem usercontrol_pass_buttons
    (c : Main.ControllerSample) (r : Main.Robot) :
  Main.IntakeMotor (Main.usercontrol_pass c r) =
    (if Main.ButtonR1 c then 100 else if Main.ButtonR2 c then -100 else 0) /\
  Main.RampMotor (Main.usercontrol_pass c r) =
    (if Main.ButtonL1 c then 100 else if Main.ButtonL2 c then -100 else 0) /\
  Main.FullPowerRampMotor (Main.usercontrol_pass c r) =
    (if Main.ButtonX c then 100 else if Main.ButtonY c then -100 else 0).
Proof.
  unfold Main.usercontrol_pass.
  cbn [Main.IntakeMotor Main.RampMotor Main.FullPowerRampMotor].
  destruct (Main.ButtonR1 c), (Main.ButtonR2 c), (Main.ButtonL1 c),
    (Main.ButtonL2 c), (Main.ButtonX c), (Main.ButtonY c);
    repeat split.
Qed.
